(** * generate_data.py: synthetic survey responses

    A shallow embedding of the script [generate_data.py] and the
    properties its specification states about it.

    Numbers.  The script computes with Python floats.  Here every float
    is an exact rational ([Q]): sums and products are exact, so the
    rounding error of a binary64 [+] or [*] is not part of the model,
    and there is no infinity or NaN (on which [round] would raise).
    The integers the script emits ([round], [max], [min], [int]) are [Z].

    Randomness.  [np.random.normal(loc, scale)] takes the next standard
    normal variate [z] of numpy's global generator and returns
    [loc + scale * z].  The generator is a sequence of variates with a
    cursor; nothing is assumed about the values in the sequence.

    Effects.  The script reads the generator, writes one file and prints
    one line.  These live in a [world] that is threaded through a small
    state-and-exception monad [Py]. *)

From Stdlib Require Import ZArith QArith Qround Qabs Lqa Lia.
From Stdlib Require Import List String Ascii Bool.
From Stdlib Require Import DecimalString DecimalZ DecimalPos.
Import ListNotations.

Open Scope Q_scope.

(* ================================================================== *)
(** ** Python's numeric builtins *)

Module PyNum.

(** C's [round]: nearest integer, halves away from zero. *)
Definition c_round (x : Q) : Z :=
  if Qle_bool 0 x then Qfloor (x + 0.5) else Qceiling (x - 0.5).

(** [round(x)] on a float with no [ndigits], as CPython computes it:
    [rounded = round(x); if (fabs(x - rounded) == 0.5) rounded =
    2.0 * round(x / 2.0);] and the result is converted to an int. *)
Definition py_round (x : Q) : Z :=
  let rounded := c_round x in
  if Qeq_bool (Qabs (x - inject_Z rounded)) 0.5
  then (2 * c_round (x / 2))%Z
  else rounded.

(** [max(a, b)], [min(a, b)] and [int(v)] on ints. *)
Definition py_max (a b : Z) : Z := if (a <? b)%Z then b else a.
Definition py_min (a b : Z) : Z := if (b <? a)%Z then b else a.
Definition py_int (v : Z) : Z := v.

(** [str(v)] on an int. *)
Definition py_str (v : Z) : string := NilZero.string_of_int (Z.to_int v).

(** Round to nearest, ties to the even neighbour, written with [Qfloor]. *)
Definition round_half_even (x : Q) : Z :=
  let f := Qfloor x in
  match Qcompare (x - inject_Z f) 0.5 with
  | Lt => f
  | Gt => (f + 1)%Z
  | Eq => if Z.even f then f else (f + 1)%Z
  end.

(** Round to nearest, a half going to the upper neighbour: the
    rounding of the specification's item rule ("standard rounding",
    halves rounded away from the lower integer). *)
Definition round_half_up (x : Q) : Z := Qfloor (x + 0.5).

End PyNum.
Import PyNum.

(* ================================================================== *)
(** ** The interpreter's state and the monad of the script *)

Module PyRun.

(** A dict with string keys, in insertion order (the order in which
    [.items()] yields its entries). *)
Definition dict (V : Type) : Type := list (string * V).

Fixpoint dict_get {V : Type} (d : dict V) (k : string) : option V :=
  match d with
  | [] => None
  | (k', v) :: d' => if String.eqb k k' then Some v else dict_get d' k
  end.

(** What the script can observe and change: numpy's generator (its
    standard normal variates and how many were taken), whether the
    output path can be opened for writing, the output file and the
    lines printed so far. *)
Record world : Type := World {
  variates : nat -> Q;
  cursor : nat;
  writable : bool;
  disk : option string;
  stdout : list string
}.

Inductive exn : Type :=
| KeyError (key : string)
| OSError.

Inductive outcome (A : Type) : Type :=
| Returned (a : A)
| Raised (e : exn).
Arguments Returned {A} a.
Arguments Raised {A} e.

Definition Py (A : Type) : Type := world -> outcome A * world.

Definition ret {A : Type} (a : A) : Py A := fun w => (Returned a, w).

Definition bind {A B : Type} (m : Py A) (k : A -> Py B) : Py B :=
  fun w =>
    match m w with
    | (Returned a, w') => k a w'
    | (Raised e, w') => (Raised e, w')
    end.

Definition raise {A : Type} (e : exn) : Py A := fun w => (Raised e, w).

Declare Scope py_scope.
Delimit Scope py_scope with py.
Notation "x <- m ;; k" := (bind m (fun x => k))
  (at level 61, m at next level, right associativity) : py_scope.
Notation "m ;;; k" := (bind m (fun _ => k))
  (at level 61, right associativity) : py_scope.
Open Scope py_scope.

(** [for x in xs: body], the variables the body rebinds being passed
    along as [s]. *)
Fixpoint for_in {A S : Type} (xs : list A) (body : A -> S -> Py S) (s : S)
  : Py S :=
  match xs with
  | [] => ret s
  | x :: xs' => s' <- body x s ;; for_in xs' body s'
  end.

(** [d[k]]. *)
Definition getitem {V : Type} (d : dict V) (k : string) : Py V :=
  match dict_get d k with
  | Some v => ret v
  | None => raise (KeyError k)
  end.

(** [np.random.normal(loc, scale)]. *)
Definition np_random_normal (loc scale : Q) : Py Q :=
  fun w =>
    (Returned (loc + scale * variates w (cursor w)),
     World (variates w) (S (cursor w)) (writable w) (disk w) (stdout w)).

(** [open(path, 'w', newline='')]: fails when the path cannot be
    opened, truncates the file otherwise. *)
Definition open_w : Py unit :=
  fun w =>
    if writable w
    then (Returned tt,
          World (variates w) (cursor w) (writable w) (Some EmptyString)
                (stdout w))
    else (Raised OSError, w).

(** [f.write(s)] on the file opened by [open_w]. *)
Definition write (s : string) : Py unit :=
  fun w =>
    (Returned tt,
     World (variates w) (cursor w) (writable w)
           (Some (match disk w with Some t => t | None => EmptyString end
                  ++ s)%string)
           (stdout w)).

(** [print(s)]. *)
Definition print (s : string) : Py unit :=
  fun w =>
    (Returned tt,
     World (variates w) (cursor w) (writable w) (disk w) (stdout w ++ [s])).

End PyRun.
Import PyRun.
Open Scope py_scope.

(* ================================================================== *)
(** ** The csv writer *)

Module Csv.

Definition comma : ascii := ","%char.
Definition quotechar : ascii := "034"%char.
Definition CR : ascii := "013"%char.
Definition LF : ascii := "010"%char.

(** The characters that make [QUOTE_MINIMAL] quote a field. *)
Definition special (c : ascii) : bool :=
  Ascii.eqb c comma || Ascii.eqb c quotechar
  || Ascii.eqb c CR || Ascii.eqb c LF.

Fixpoint needs_quote (s : string) : bool :=
  match s with
  | EmptyString => false
  | String c s' => special c || needs_quote s'
  end.

(** Quote characters are doubled inside a quoted field. *)
Fixpoint escape (s : string) : string :=
  match s with
  | EmptyString => EmptyString
  | String c s' =>
      if Ascii.eqb c quotechar
      then String c (String c (escape s'))
      else String c (escape s')
  end.

Definition field (s : string) : string :=
  if needs_quote s
  then String quotechar (escape s ++ String quotechar EmptyString)
  else s.

Definition lineterminator : string := String CR (String LF EmptyString).

(** The text [writer.writerow(row)] writes. *)
Definition line (row : list string) : string :=
  (String.concat (String comma EmptyString) (map field row)
     ++ lineterminator)%string.

Definition writerow (row : list string) : Py unit := write (line row).

Definition writerows (rows : list (list string)) : Py unit :=
  for_in rows (fun row _ => writerow row) tt.

End Csv.

(* ================================================================== *)
(** ** The script *)

Module Script.

Open Scope string_scope.

(** Configuration. *)
Definition NUM_RESPONDENTS : nat := 150.
Definition SCALE_MIN : Z := 1.
Definition SCALE_MAX : Z := 5.

Definition constructs : dict (list string) :=
  [ ("CSVC", ["CSVC1"; "CSVC2"; "CSVC3"; "CSVC4"]);
    ("GV",   ["GV1";   "GV2";   "GV3";   "GV4"]);
    ("CT",   ["CT1";   "CT2";   "CT3";   "CT4"]);
    ("NV",   ["NV1";   "NV2";   "NV3";   "NV4"]);
    ("HP",   ["HP1";   "HP2";   "HP3";   "HP4"]);
    ("HL",   ["HL1";   "HL2";   "HL3";   "HL4"]);
    ("TT",   ["TT1";   "TT2";   "TT3";   "TT4"]) ].

(** [header = []; for code, items in constructs.items():
    header.extend(items)]. *)
Definition header : list string :=
  fold_left (fun header '(code, items) => (header ++ items)%list)
    constructs [].

(** Latent variable means. *)
Definition mu_CSVC : Q := 3.5.
Definition mu_GV : Q := 4.0.
Definition mu_CT : Q := 3.8.
Definition mu_NV : Q := 3.2.
Definition mu_HP : Q := 3.0.

(** The first half of the loop body: the seven latent factors of one
    respondent, as the dict [factors]. *)
Definition draw_factors : Py (dict Q) :=
  f_CSVC <- np_random_normal mu_CSVC 0.8 ;;
  f_GV <- np_random_normal mu_GV 0.7 ;;
  f_CT <- np_random_normal mu_CT 0.75 ;;
  f_NV <- np_random_normal mu_NV 0.9 ;;
  f_HP <- np_random_normal mu_HP 0.85 ;;
  eps_HL <- np_random_normal 0 0.5 ;;
  let f_HL :=
    ((0.3 * f_GV + 0.3 * f_CT + 0.2 * f_CSVC + 0.1 * f_NV + 0.1 * f_HP)
     + eps_HL)%Q in
  eps_TT <- np_random_normal 0 0.4 ;;
  let f_TT := ((0.8 * f_HL) + eps_TT)%Q in
  ret [ ("CSVC", f_CSVC); ("GV", f_GV); ("CT", f_CT); ("NV", f_NV);
        ("HP", f_HP); ("HL", f_HL); ("TT", f_TT) ].

(** The innermost loop: the item scores of one construct, appended
    to [row]. *)
Definition score_items (base_val : Q) (items : list string)
                       (row : list Z) : Py (list Z) :=
  for_in items
    (fun item row =>
       noise <- np_random_normal 0 0.6 ;;
       let val := (base_val + noise)%Q in
       let val := py_round val in
       let val := py_max SCALE_MIN (py_min SCALE_MAX val) in
       ret (row ++ [py_int val])%list)
    row.

(** The second half of the loop body: the row of item scores. *)
Definition score_constructs (factors : dict Q) (row : list Z)
  : Py (list Z) :=
  for_in constructs
    (fun '(code, items) row =>
       base_val <- getitem factors code ;;
       score_items base_val items row)
    row.

(** One iteration of the main loop. *)
Definition respondent : Py (list Z) :=
  factors <- draw_factors ;;
  score_constructs factors [].

(** [data = []; for i in range(n): ...; data.append(row)]. *)
Definition generate (n : nat) : Py (list (list Z)) :=
  for_in (seq 0 n)
    (fun i data => row <- respondent ;; ret (data ++ [row])%list)
    [].

(** The [with open(...)] block.  The header's fields are strings,
    the data's are ints, which the writer turns into text with
    [str]. *)
Definition write_csv (header : list string) (data : list (list Z))
  : Py unit :=
  open_w ;;;
  Csv.writerow header ;;;
  Csv.writerows (map (map py_str) data).

Definition confirmation : string :=
  "Generated sample_data_large.csv with 150 rows and 28 columns.".

(** The whole script. *)
Definition main : Py unit :=
  data <- generate NUM_RESPONDENTS ;;
  write_csv header data ;;;
  print confirmation.

End Script.
Import Script.

(* ================================================================== *)
(** ** What the script computes, as functions of the variates *)

Module Denote.

Open Scope string_scope.

(** The world after [k] more variates were taken, and the [k]-th
    variate still to come. *)
Definition advance (k : nat) (w : world) : world :=
  World (variates w) (k + cursor w) (writable w) (disk w) (stdout w).

Definition draw (w : world) (k : nat) : Q := variates w (k + cursor w).

(** Lines 74-79 on one item: the score from the construct's latent
    value and the item's noise draw. *)
Definition item_score (base_val noise : Q) : Z :=
  py_int (py_max SCALE_MIN (py_min SCALE_MAX (py_round (base_val + noise)))).

(** An iteration takes 35 variates [z 0 .. z 34]: one for each of the
    five independent factors, one for each of the two noises of the
    dependent factors, and one for each of the 28 items. *)
Definition draws_per_respondent : nat := 35.

Definition f_CSVC (z : nat -> Q) : Q := mu_CSVC + 0.8 * z 0%nat.
Definition f_GV (z : nat -> Q) : Q := mu_GV + 0.7 * z 1%nat.
Definition f_CT (z : nat -> Q) : Q := mu_CT + 0.75 * z 2%nat.
Definition f_NV (z : nat -> Q) : Q := mu_NV + 0.9 * z 3%nat.
Definition f_HP (z : nat -> Q) : Q := mu_HP + 0.85 * z 4%nat.
Definition eps_HL (z : nat -> Q) : Q := 0 + 0.5 * z 5%nat.
Definition f_HL (z : nat -> Q) : Q :=
  (0.3 * f_GV z + 0.3 * f_CT z + 0.2 * f_CSVC z + 0.1 * f_NV z
   + 0.1 * f_HP z) + eps_HL z.
Definition eps_TT (z : nat -> Q) : Q := 0 + 0.4 * z 6%nat.
Definition f_TT (z : nat -> Q) : Q := (0.8 * f_HL z) + eps_TT z.

Definition factors_of (z : nat -> Q) : dict Q :=
  [ ("CSVC", f_CSVC z); ("GV", f_GV z); ("CT", f_CT z); ("NV", f_NV z);
    ("HP", f_HP z); ("HL", f_HL z); ("TT", f_TT z) ].

(** The noise draw of column [j] (0-based, 0..27). *)
Definition noise (z : nat -> Q) (j : nat) : Q := 0 + 0.6 * z (7 + j)%nat.

(** The latent value behind column [j]: that of construct [j / 4] in
    declaration order. *)
Definition base_of (z : nat -> Q) (j : nat) : Q :=
  nth (j / 4) (map snd (factors_of z)) 0.

Definition row_of (z : nat -> Q) : list Z :=
  map (fun j => item_score (base_of z j) (noise z j)) (seq 0 28).

(** Row [i] is made from the variates of iteration [i] only. *)
Definition rows_of (z : nat -> Q) (n : nat) : list (list Z) :=
  map (fun i => row_of (fun k => z (draws_per_respondent * i + k)%nat))
      (seq 0 n).

(** The text of the output file. *)
Definition csv_text (header : list string) (data : list (list Z))
  : string :=
  fold_right String.append ""
             (map Csv.line (header :: map (map py_str) data)).

End Denote.
Import Denote.

(* ================================================================== *)
(** ** Reading the file back *)

Module CsvRead.

Open Scope string_scope.

(** A reader for csv text without quoted fields: a comma ends a
    field, a line feed ends a row, carriage returns are dropped.  It
    is how the emitted bytes are observed; the script has no reader. *)
Fixpoint read_from (s : string) (cur : string) (row : list string)
  : list (list string) :=
  match s with
  | EmptyString =>
      match cur, row with
      | EmptyString, [] => []
      | _, _ => [(row ++ [cur])%list]
      end
  | String c s' =>
      if Ascii.eqb c Csv.comma then read_from s' "" (row ++ [cur])%list
      else if Ascii.eqb c Csv.CR then read_from s' cur row
      else if Ascii.eqb c Csv.LF
           then (row ++ [cur])%list :: read_from s' "" []
           else read_from s' (cur ++ String c "") row
  end.

Definition read (text : string) : list (list string) :=
  read_from text "" [].

(** A field the writer leaves unquoted. *)
Definition plain (s : string) : Prop := Csv.needs_quote s = false.

End CsvRead.
Import CsvRead.

(* ================================================================== *)
(** ** The specification's vocabulary *)

Module Spec.

Open Scope string_scope.

(** The item rule in the specification's words: latent value plus
    noise, rounded with halves going up, then clamped. *)
Definition spec_item_score (latent noise : Q) : Z :=
  Z.max SCALE_MIN (Z.min SCALE_MAX (round_half_up (latent + noise))).

(** The construct a column name belongs to. *)
Definition owner (item : string) : option string :=
  option_map fst
    (find (fun c => existsb (String.eqb item) (snd c)) constructs).

(** Two generators that will hand out the same numbers for the next
    [m] calls. *)
Definition same_draws (m : nat) (w1 w2 : world) : Prop :=
  forall k, (k < m)%nat -> draw w1 k == draw w2 k.

Definition in_scale (v : Z) : Prop := (SCALE_MIN <= v <= SCALE_MAX)%Z.

(** Where half-even and half-up rounding part: exactly at an even
    integer plus one half. *)
Definition even_tie (x : Q) : Prop :=
  x - inject_Z (Qfloor x) == 0.5 /\ Z.even (Qfloor x) = true.

End Spec.
Import Spec.

(* ================================================================== *)
(** ** Concrete runs *)

Module Samples.

Open Scope string_scope.

(** Variates cycling through -1.5, -1, ..., 1.5. *)
Definition cycle (k : nat) : Q := (Z.of_nat (k mod 7) - 3) # 2.
Definition cycle_world : world := World cycle 0 true None [].

(** The same numbers as other fractions, in a generator that is
    three calls in, with an old file and an old line around. *)
Definition cycle' (k : nat) : Q := (2 * (Z.of_nat ((k - 3) mod 7) - 3)) # 4.
Definition cycle_world' : world :=
  World cycle' 3 true (Some "old") ["earlier"].

(** Every draw returns its mean: all variates zero. *)
Definition mean_world : world := World (fun _ => 0) 0 true None [].

(** The first item of the first respondent lands on 2.5. *)
Definition tie_world : world :=
  World (fun k => if Nat.eqb k 0 then -1.25 else 0) 0 true None [].

(** All five independent factors equal 3 and the satisfaction noise
    is zero. *)
Definition level_world : world :=
  World (fun k => nth k [-0.625; -10 # 7; -16 # 15; -2 # 9; 0; 0] 0)
        0 true None [].

(** A path that cannot be opened. *)
Definition readonly_world : world := World cycle 0 false None [].

End Samples.
Import Samples.

(* ================================================================== *)
(** ** Observers for the further properties *)

Module Observe.

Open Scope string_scope.

(** [int(s)] on the text of a decimal integer. *)
Definition parse_int (s : string) : option Z :=
  option_map Z.of_int (NilZero.int_of_string s).

(** The number of items of a list of constructs. *)
Definition items_count (cs : dict (list string)) : nat :=
  List.length (List.concat (map snd cs)).

(** The distance of a number to a point of the scale. *)
Definition dist (v : Q) (k : Z) : Q := Qabs (v - inject_Z k).

(** A dict of factors that has no entry for "CT". *)
Definition partial_factors : dict Q := [ ("CSVC", 3.5); ("GV", 4.0) ].

End Observe.
Import Observe.

(* ================================================================== *)
(** ** Rounding *)

Section RoundingFacts.

Lemma Qfloor_unique (x : Q) (n : Z) :
  inject_Z n <= x -> x < inject_Z (n + 1) -> Qfloor x = n.
Proof.
  intros Hlo Hhi.
  pose proof (Qfloor_le x) as Hf. pose proof (Qlt_floor x) as Hg.
  assert (inject_Z (Qfloor x) < inject_Z (n + 1)) as H1 by lra.
  assert (inject_Z n < inject_Z (Qfloor x + 1)) as H2 by lra.
  rewrite <- Zlt_Qlt in H1, H2. lia.
Qed.

Lemma Qceiling_unique (x : Q) (n : Z) :
  inject_Z (n - 1) < x -> x <= inject_Z n -> Qceiling x = n.
Proof.
  intros Hlo Hhi.
  pose proof (Qle_ceiling x) as Hf. pose proof (Qceiling_lt x) as Hg.
  assert (inject_Z (Qceiling x - 1) < inject_Z n) as H1 by lra.
  assert (inject_Z (n - 1) < inject_Z (Qceiling x)) as H2 by lra.
  rewrite <- Zlt_Qlt in H1, H2. lia.
Qed.

Lemma Qhalf (x : Q) : x / 2 == x * 0.5.
Proof. field. Qed.

Lemma inject_Z_double (n : Z) : inject_Z (2 * n) == 2 * inject_Z n.
Proof. rewrite inject_Z_mult. reflexivity. Qed.

Lemma inject_Z_succ (n : Z) : inject_Z (n + 1) == inject_Z n + 1.
Proof. rewrite inject_Z_plus. reflexivity. Qed.

Lemma inject_Z_pred (n : Z) : inject_Z (n - 1) == inject_Z n - 1.
Proof. unfold Z.sub. rewrite inject_Z_plus. reflexivity. Qed.

End RoundingFacts.

Ltac push_inj :=
  repeat (rewrite ?inject_Z_succ, ?inject_Z_pred, ?inject_Z_double in * ).
Ltac floor_is n := apply (Qfloor_unique _ n); push_inj; try lra.
Ltac ceil_is n := apply (Qceiling_unique _ n); push_inj; try lra.

Section RoundingSpec.

(** [c_round] between two consecutive integers. *)
Lemma c_round_cases (x : Q) (f : Z) :
  inject_Z f <= x -> x < inject_Z f + 1 ->
  (x - inject_Z f < 0.5 -> c_round x = f) /\
  (0.5 < x - inject_Z f -> c_round x = (f + 1)%Z) /\
  (x - inject_Z f == 0.5 ->
     c_round x = if Qle_bool 0 x then (f + 1)%Z else f).
Proof.
  intros Hlo Hhi. unfold c_round.
  destruct (Qle_bool 0 x) eqn:Hs; repeat split; intros Hd.
  - floor_is f.
  - floor_is (f + 1)%Z.
  - floor_is (f + 1)%Z.
  - ceil_is f.
  - ceil_is (f + 1)%Z.
  - ceil_is f.
Qed.

Lemma Qfloor_bounds (x : Q) :
  inject_Z (Qfloor x) <= x /\ x < inject_Z (Qfloor x) + 1.
Proof.
  split; [apply Qfloor_le|]. rewrite <- inject_Z_succ. apply Qlt_floor.
Qed.

Lemma Qeq_bool_false (a b : Q) : ~ a == b -> Qeq_bool a b = false.
Proof.
  intros H. destruct (Qeq_bool a b) eqn:E; [|reflexivity].
  apply Qeq_bool_iff in E. contradiction.
Qed.

Lemma Qeq_bool_true (a b : Q) : a == b -> Qeq_bool a b = true.
Proof. apply Qeq_bool_iff. Qed.

(** CPython's [round] is round-half-to-even. *)
Lemma py_round_half_even (x : Q) : py_round x = round_half_even x.
Proof.
  unfold py_round, round_half_even.
  destruct (Qfloor_bounds x) as [Hlo Hhi].
  remember (Qfloor x) as f eqn:Ef. clear Ef.
  destruct (c_round_cases x f Hlo Hhi) as (Hlt & Hgt & Heq).
  destruct (Qcompare_spec (x - inject_Z f) 0.5) as [He|Hl|Hg].
  - (* a tie: x = f + 1/2 *)
    rewrite Qeq_bool_true.
    2:{ rewrite (Heq He).
        destruct (Qle_bool 0 x); push_inj;
          apply Qabs_case; intros; lra. }
    destruct (Z.even f) eqn:Hev.
    + apply Z.even_spec in Hev. destruct Hev as [m Hm]. subst f.
      rewrite inject_Z_double in *.
      destruct (c_round_cases (x / 2) m) as (H & _ & _);
        try (rewrite Qhalf; lra).
      rewrite H by (rewrite Qhalf; lra). reflexivity.
    + assert (Ho : Z.odd f = true)
        by (rewrite <- Z.negb_even, Hev; reflexivity).
      apply Z.odd_spec in Ho. destruct Ho as [m Hm]. subst f.
      rewrite inject_Z_succ, inject_Z_double in *.
      destruct (c_round_cases (x / 2) m) as (_ & H & _);
        try (rewrite Qhalf; lra).
      rewrite H by (rewrite Qhalf; lra). lia.
  - rewrite (Hlt Hl). rewrite Qeq_bool_false; [reflexivity|].
    apply Qabs_case; intros; lra.
  - rewrite (Hgt Hg). rewrite Qeq_bool_false; [reflexivity|].
    push_inj. apply Qabs_case; intros; lra.
Qed.

End RoundingSpec.

(* ================================================================== *)
(** ** Running the script *)

Section Runs.

Open Scope string_scope.

Lemma bind_Returned {A B : Type} (m : Py A) (k : A -> Py B)
      (w w' : world) (a : A) :
  m w = (Returned a, w') -> bind m k w = k a w'.
Proof. intros H. unfold bind. rewrite H. reflexivity. Qed.

Lemma advance_advance (a b : nat) (w : world) :
  advance a (advance b w) = advance (b + a) w.
Proof. unfold advance. cbn [variates cursor writable disk stdout].
  f_equal. lia. Qed.

Lemma draw_advance (b k : nat) (w : world) :
  draw (advance b w) k = draw w (b + k).
Proof. unfold draw, advance. cbn [variates cursor]. f_equal. lia. Qed.

Lemma np_random_normal_run (loc scale : Q) (w : world) :
  np_random_normal loc scale w
  = (Returned (loc + scale * draw w 0)%Q, advance 1 w).
Proof. reflexivity. Qed.

Lemma draw_factors_run (w : world) :
  draw_factors w = (Returned (factors_of (draw w)), advance 7 w).
Proof.
  unfold draw_factors.
  repeat (erewrite bind_Returned by apply np_random_normal_run;
          rewrite ?advance_advance, ?draw_advance;
          cbn [Nat.add]).
  reflexivity.
Qed.

Lemma score_items_run (base_val : Q) (items : list string) :
  forall (row : list Z) (w : world),
    score_items base_val items row w
    = (Returned
         (row ++ map (fun j => item_score base_val (0 + 0.6 * draw w j)%Q)
                     (seq 0 (List.length items)))%list,
       advance (List.length items) w).
Proof.
  unfold score_items.
  induction items as [|item items IH]; intros row w.
  - cbn [for_in List.length seq map]. rewrite app_nil_r.
    unfold ret, advance. destruct w; reflexivity.
  - cbn [for_in].
    erewrite bind_Returned.
    2:{ erewrite bind_Returned by apply np_random_normal_run.
        reflexivity. }
    rewrite IH. rewrite advance_advance.
    cbn [List.length seq map]. rewrite <- seq_shift, map_map.
    rewrite <- app_assoc. cbn [app].
    f_equal. f_equal. f_equal. f_equal.
    apply map_ext. intros j. rewrite draw_advance. reflexivity.
Qed.

Lemma getitem_factors (z : nat -> Q) (j : nat) (w : world) :
  (j < 7)%nat ->
  getitem (factors_of z) (nth j (map fst constructs) "") w
  = (Returned (nth j (map snd (factors_of z)) 0%Q), w).
Proof.
  intros Hj.
  do 7 (destruct j as [|j]; [reflexivity|]). lia.
Qed.

(** One round of the loop over the constructs. *)
Lemma construct_run (z : nat -> Q) (c : nat) (items : list string)
      (row : list Z) (w : world) :
  (c < 7)%nat ->
  (base_val <- getitem (factors_of z) (nth c (map fst constructs) "") ;;
   score_items base_val items row) w
  = (Returned
       (row ++ map (fun i =>
                      item_score (nth c (map snd (factors_of z)) 0%Q)
                                 (0 + 0.6 * draw w i)%Q)
                   (seq 0 (List.length items)))%list,
     advance (List.length items) w).
Proof.
  intros Hc.
  erewrite bind_Returned by (apply getitem_factors; exact Hc).
  apply score_items_run.
Qed.

Lemma score_constructs_run (z : nat -> Q) (w : world) :
  score_constructs (factors_of z) [] w
  = (Returned
       (map (fun j => item_score (base_of z j) (0 + 0.6 * draw w j)%Q)
            (seq 0 28)),
     advance 28 w).
Proof.
  unfold score_constructs, constructs. cbn [for_in].
  erewrite bind_Returned by (apply (construct_run z 0); lia).
  erewrite bind_Returned by (apply (construct_run z 1); lia).
  erewrite bind_Returned by (apply (construct_run z 2); lia).
  erewrite bind_Returned by (apply (construct_run z 3); lia).
  erewrite bind_Returned by (apply (construct_run z 4); lia).
  erewrite bind_Returned by (apply (construct_run z 5); lia).
  erewrite bind_Returned by (apply (construct_run z 6); lia).
  cbn [List.length]. rewrite !advance_advance.
  cbn [seq map app Nat.add]. rewrite !draw_advance.
  unfold base_of. cbn [Nat.add]. simpl (_ / 4)%nat.
  reflexivity.
Qed.

Lemma respondent_run (w : world) :
  respondent w
  = (Returned (row_of (draw w)), advance draws_per_respondent w).
Proof.
  unfold respondent.
  erewrite bind_Returned by apply draw_factors_run.
  rewrite score_constructs_run, advance_advance.
  unfold row_of, noise. cbn [Nat.add].
  f_equal.
Qed.

Lemma factors_of_ext (z z' : nat -> Q) :
  (forall k, (k < 7)%nat -> z k = z' k) -> factors_of z = factors_of z'.
Proof.
  intros H.
  unfold factors_of, f_TT, f_HL, eps_TT, eps_HL, f_CSVC, f_GV, f_CT,
    f_NV, f_HP.
  rewrite !H by lia. reflexivity.
Qed.

(** A row depends on the 35 variates of its iteration only. *)
Lemma row_of_ext (z z' : nat -> Q) :
  (forall k, (k < draws_per_respondent)%nat -> z k = z' k) ->
  row_of z = row_of z'.
Proof.
  unfold draws_per_respondent. intros H. unfold row_of.
  apply map_ext_in. intros j Hj. apply in_seq in Hj.
  unfold base_of, noise.
  rewrite (factors_of_ext z z') by (intros; apply H; lia).
  rewrite H by lia. reflexivity.
Qed.

Lemma generate_loop_run (n : nat) :
  forall (a : nat) (data : list (list Z)) (w : world),
    for_in (seq a n)
      (fun i data => row <- respondent ;; ret (data ++ [row])%list)
      data w
    = (Returned (data ++ rows_of (draw w) n)%list,
       advance (draws_per_respondent * n) w).
Proof.
  induction n as [|n IH]; intros a data w.
  - cbn [seq for_in]. unfold rows_of. cbn [seq map].
    rewrite app_nil_r, Nat.mul_0_r.
    unfold ret, advance. destruct w; reflexivity.
  - cbn [seq for_in].
    erewrite bind_Returned.
    2:{ erewrite bind_Returned by apply respondent_run. reflexivity. }
    rewrite IH, advance_advance, <- app_assoc.
    replace (draws_per_respondent + draws_per_respondent * n)%nat
      with (draws_per_respondent * S n)%nat by lia.
    f_equal. f_equal. f_equal.
    unfold rows_of. cbn [seq map]. rewrite <- seq_shift, map_map.
    cbn [app]. f_equal.
    apply map_ext. intros i. apply row_of_ext. intros k _.
    rewrite draw_advance. f_equal. lia.
Qed.

Lemma generate_run (n : nat) (w : world) :
  generate n w
  = (Returned (rows_of (draw w) n), advance (draws_per_respondent * n) w).
Proof. unfold generate. rewrite generate_loop_run. reflexivity. Qed.

Lemma string_app_assoc (a b c : string) : (a ++ b) ++ c = a ++ (b ++ c).
Proof. induction a as [|x a IH]; cbn; [reflexivity|]. now rewrite IH. Qed.

Lemma string_app_nil_r (a : string) : a ++ "" = a.
Proof. induction a as [|x a IH]; cbn; [reflexivity|]. now rewrite IH. Qed.

Lemma writerows_run (rows : list (list string)) :
  forall (t : string) (w : world),
    disk w = Some t ->
    Csv.writerows rows w
    = (Returned tt,
       World (variates w) (cursor w) (writable w)
             (Some (t ++ fold_right String.append "" (map Csv.line rows)))
             (stdout w)).
Proof.
  unfold Csv.writerows.
  induction rows as [|row rows IH]; intros t w Ht.
  - cbn [for_in map fold_right]. rewrite string_app_nil_r, <- Ht.
    destruct w; reflexivity.
  - cbn [for_in map fold_right].
    erewrite bind_Returned by reflexivity.
    erewrite IH by reflexivity.
    cbn [variates cursor writable disk stdout].
    rewrite Ht, string_app_assoc. reflexivity.
Qed.

Lemma write_csv_run (head : list string) (data : list (list Z))
      (w : world) :
  write_csv head data w
  = if writable w
    then (Returned tt,
          World (variates w) (cursor w) (writable w)
                (Some (csv_text head data)) (stdout w))
    else (Raised OSError, w).
Proof.
  unfold write_csv, open_w, bind at 1.
  destruct (writable w) eqn:Hw; [|reflexivity].
  erewrite bind_Returned by reflexivity.
  erewrite writerows_run by reflexivity.
  cbn [variates cursor writable disk stdout].
  reflexivity.
Qed.

(** The whole run: the script either fails to open its output, having
    changed nothing but the generator, or writes the file and prints
    the confirmation. *)
Lemma main_run (w : world) :
  main w
  = if writable w
    then (Returned tt,
          World (variates w)
                (draws_per_respondent * NUM_RESPONDENTS + cursor w)
                true
                (Some (csv_text header (rows_of (draw w) NUM_RESPONDENTS)))
                (stdout w ++ [confirmation]))
    else (Raised OSError,
          advance (draws_per_respondent * NUM_RESPONDENTS) w).
Proof.
  unfold main.
  erewrite bind_Returned by apply generate_run.
  unfold bind at 1. rewrite write_csv_run.
  unfold advance at 1. cbn [writable].
  destruct (writable w) eqn:Hw; [|reflexivity].
  unfold print, advance.
  cbn [variates cursor writable disk stdout]. rewrite Hw. reflexivity.
Qed.

End Runs.

(* ================================================================== *)
(** ** The reader inverts the writer *)

Section ReadBack.

Open Scope string_scope.

Lemma field_plain (s : string) : plain s -> Csv.field s = s.
Proof. unfold plain, Csv.field. intros ->. reflexivity. Qed.

Lemma read_field (f : string) :
  plain f ->
  forall (rest cur : string) (row : list string),
    read_from (f ++ rest) cur row = read_from rest (cur ++ f) row.
Proof.
  unfold plain.
  induction f as [|c f IH]; intros Hf rest cur row.
  - cbn [append]. rewrite string_app_nil_r. reflexivity.
  - cbn [Csv.needs_quote] in Hf.
    apply orb_false_iff in Hf. destruct Hf as [Hc Hf].
    unfold Csv.special in Hc.
    repeat (apply orb_false_iff in Hc; destruct Hc as [Hc ?]).
    cbn [append read_from].
    replace (Ascii.eqb c Csv.comma) with false by (symmetry; assumption).
    replace (Ascii.eqb c Csv.CR) with false by (symmetry; assumption).
    replace (Ascii.eqb c Csv.LF) with false by (symmetry; assumption).
    rewrite (IH Hf), string_app_assoc. reflexivity.
Qed.

Lemma read_fields (fs : list string) :
  forall (f rest : string) (row : list string),
    Forall plain (f :: fs) ->
    read_from
      (String.concat "," (map Csv.field (f :: fs))
         ++ Csv.lineterminator ++ rest) "" row
    = (row ++ f :: fs)%list :: read_from rest "" [].
Proof.
  induction fs as [|g fs IH]; intros f rest row Hp.
  - inversion Hp as [|? ? Hf _]; subst.
    cbn [map String.concat]. rewrite (field_plain f Hf).
    rewrite read_field by exact Hf. reflexivity.
  - inversion Hp as [|? ? Hf Hp']; subst.
    change (String.concat "," (map Csv.field (f :: g :: fs)))
      with (Csv.field f ++ "," ++ String.concat "," (map Csv.field (g :: fs))).
    rewrite (field_plain f Hf), !string_app_assoc.
    rewrite read_field by exact Hf.
    cbn [append read_from]. 
    change (Ascii.eqb "," Csv.comma) with true. cbv iota.
    rewrite IH by exact Hp'.
    rewrite <- app_assoc. reflexivity.
Qed.

Lemma read_line (fs : list string) (rest : string) :
  fs <> [] -> Forall plain fs ->
  read_from (Csv.line fs ++ rest) "" [] = fs :: read_from rest "" [].
Proof.
  intros Hne Hp. destruct fs as [|f fs]; [contradiction|].
  unfold Csv.line. rewrite string_app_assoc.
  change (String Csv.comma "") with ",".
  rewrite read_fields by exact Hp. reflexivity.
Qed.

(** Reading what the writer wrote gives back the rows, when no row is
    empty and no field needs quoting. *)
Lemma read_lines (rows : list (list string)) :
  Forall (fun fs => fs <> [] /\ Forall plain fs) rows ->
  read (fold_right String.append "" (map Csv.line rows)) = rows.
Proof.
  unfold read.
  induction rows as [|fs rows IH]; intros H; [reflexivity|].
  inversion H as [|? ? [Hne Hp] H']; subst.
  cbn [map fold_right]. rewrite read_line by assumption.
  rewrite IH by exact H'. reflexivity.
Qed.

End ReadBack.

(* ================================================================== *)
(** ** Facts about one item score *)

Section ScoreFacts.

Lemma clamp_range (v : Z) :
  (SCALE_MIN <= py_max SCALE_MIN (py_min SCALE_MAX v) <= SCALE_MAX)%Z.
Proof.
  unfold py_max, py_min, SCALE_MIN, SCALE_MAX.
  destruct (v <? 5)%Z eqn:E1.
  - destruct (1 <? v)%Z eqn:E2; lia.
  - cbn. lia.
Qed.

Lemma clamp_mono (u v : Z) :
  (u <= v)%Z ->
  (py_max SCALE_MIN (py_min SCALE_MAX u)
   <= py_max SCALE_MIN (py_min SCALE_MAX v))%Z.
Proof.
  unfold py_max, py_min, SCALE_MIN, SCALE_MAX. intros H.
  destruct (u <? 5)%Z eqn:E1; destruct (v <? 5)%Z eqn:E2;
    repeat match goal with
           | |- context [(?a <? ?b)%Z] => destruct (Z.ltb_spec a b)
           end; lia.
Qed.

(** The script's clamp is the usual one. *)
Lemma clamp_max_min (v : Z) :
  py_max SCALE_MIN (py_min SCALE_MAX v)
  = Z.max SCALE_MIN (Z.min SCALE_MAX v).
Proof.
  unfold py_max, py_min, SCALE_MIN, SCALE_MAX.
  destruct (Z.ltb_spec v 5) as [H5|H5].
  - rewrite (Z.min_r 5 v) by lia.
    destruct (Z.ltb_spec 1 v) as [H1|H1].
    + rewrite Z.max_r by lia. reflexivity.
    + rewrite Z.max_l by lia. reflexivity.
  - rewrite (Z.min_l 5 v) by lia. reflexivity.
Qed.

Lemma item_score_range (base_val noise : Q) :
  (SCALE_MIN <= item_score base_val noise <= SCALE_MAX)%Z.
Proof. unfold item_score, py_int. apply clamp_range. Qed.

Lemma round_half_even_Qeq (x y : Q) :
  x == y -> round_half_even x = round_half_even y.
Proof.
  intros H. unfold round_half_even.
  rewrite (Qfloor_comp x y H).
  assert (E : x - inject_Z (Qfloor y) == y - inject_Z (Qfloor y))
    by (rewrite H; reflexivity).
  rewrite (Qcompare_comp _ _ E 0.5 0.5 (Qeq_refl _)). reflexivity.
Qed.

Lemma item_score_Qeq (b b' n n' : Q) :
  b == b' -> n == n' -> item_score b n = item_score b' n'.
Proof.
  intros Hb Hn. unfold item_score.
  rewrite !py_round_half_even.
  rewrite (round_half_even_Qeq (b + n) (b' + n'))
    by (rewrite Hb, Hn; reflexivity).
  reflexivity.
Qed.

(** Rounding never inverts order. *)
Lemma round_half_even_mono (x y : Q) :
  x <= y -> (round_half_even x <= round_half_even y)%Z.
Proof.
  intros Hxy. unfold round_half_even.
  destruct (Qfloor_bounds x) as [Hx1 Hx2].
  destruct (Qfloor_bounds y) as [Hy1 Hy2].
  pose proof (Qfloor_resp_le x y Hxy) as Hf.
  destruct (Z.eq_dec (Qfloor x) (Qfloor y)) as [E|N].
  - rewrite E in *.
    destruct (Qcompare_spec (x - inject_Z (Qfloor y)) 0.5);
      destruct (Qcompare_spec (y - inject_Z (Qfloor y)) 0.5);
      try destruct (Z.even (Qfloor y)); try lia; lra.
  - assert (Hlt : (Qfloor x + 1 <= Qfloor y)%Z) by lia.
    destruct (Qcompare_spec (x - inject_Z (Qfloor x)) 0.5);
      destruct (Qcompare_spec (y - inject_Z (Qfloor y)) 0.5);
      try destruct (Z.even (Qfloor x)); try destruct (Z.even (Qfloor y));
      lia.
Qed.

Lemma py_round_mono (x y : Q) : x <= y -> (py_round x <= py_round y)%Z.
Proof. rewrite !py_round_half_even. apply round_half_even_mono. Qed.

(** [round] returns a nearest integer, the even one at a tie. *)
Lemma py_round_nearest (x : Q) :
  Qabs (x - inject_Z (py_round x)) <= 0.5.
Proof.
  rewrite py_round_half_even. unfold round_half_even.
  destruct (Qfloor_bounds x) as [H1 H2].
  destruct (Qcompare_spec (x - inject_Z (Qfloor x)) 0.5);
    try destruct (Z.even (Qfloor x)); push_inj;
    apply Qabs_case; intros; lra.
Qed.

Lemma py_round_tie_even (x : Q) :
  Qabs (x - inject_Z (py_round x)) == 0.5 -> Z.even (py_round x) = true.
Proof.
  rewrite py_round_half_even. unfold round_half_even.
  destruct (Qfloor_bounds x) as [H1 H2].
  destruct (Qcompare_spec (x - inject_Z (Qfloor x)) 0.5) as [He|Hl|Hg].
  - intros _. destruct (Z.even (Qfloor x)) eqn:Hev; [exact Hev|].
    rewrite Z.even_add, Hev. reflexivity.
  - apply Qabs_case; intros; lra.
  - push_inj. apply Qabs_case; intros; lra.
Qed.

Lemma py_round_half_up (x : Q) :
  ~ even_tie x -> py_round x = round_half_up x.
Proof.
  unfold even_tie. intros Hn.
  rewrite py_round_half_even. unfold round_half_even, round_half_up.
  destruct (Qfloor_bounds x) as [H1 H2].
  destruct (Qcompare_spec (x - inject_Z (Qfloor x)) 0.5) as [He|Hl|Hg].
  - destruct (Z.even (Qfloor x)); [exfalso; apply Hn; split; auto|].
    symmetry. floor_is (Qfloor x + 1)%Z.
  - symmetry. floor_is (Qfloor x).
  - symmetry. floor_is (Qfloor x + 1)%Z.
Qed.

Lemma py_round_even_tie (x : Q) :
  even_tie x -> py_round x = Qfloor x /\ round_half_up x = (Qfloor x + 1)%Z.
Proof.
  unfold even_tie. intros [He Hev].
  rewrite py_round_half_even. unfold round_half_even, round_half_up.
  destruct (Qfloor_bounds x) as [H1 H2].
  destruct (Qcompare_spec (x - inject_Z (Qfloor x)) 0.5); try lra.
  rewrite Hev. split; [reflexivity|]. floor_is (Qfloor x + 1)%Z.
Qed.

End ScoreFacts.

(* ================================================================== *)
(** ** Facts about the rows and the file *)

Section RowFacts.

Open Scope string_scope.

Lemma row_of_length (z : nat -> Q) : List.length (row_of z) = 28%nat.
Proof. unfold row_of. rewrite length_map, length_seq. reflexivity. Qed.

Lemma row_of_in_scale (z : nat -> Q) : Forall in_scale (row_of z).
Proof.
  unfold row_of. apply Forall_map, Forall_forall. intros j _.
  apply item_score_range.
Qed.

Lemma nth_row_of (z : nat -> Q) (j : nat) :
  (j < 28)%nat ->
  nth j (row_of z) 0%Z = item_score (base_of z j) (noise z j).
Proof.
  intros Hj. unfold row_of.
  rewrite (nth_indep _ 0%Z (item_score (base_of z 0) (noise z 0)))
    by (rewrite length_map, length_seq; exact Hj).
  rewrite (map_nth (fun j => item_score (base_of z j) (noise z j))).
  rewrite seq_nth by exact Hj. reflexivity.
Qed.

Lemma rows_of_length (z : nat -> Q) (n : nat) :
  List.length (rows_of z n) = n.
Proof. unfold rows_of. rewrite length_map, length_seq. reflexivity. Qed.

Lemma nth_rows_of (z : nat -> Q) (n i : nat) :
  (i < n)%nat ->
  nth i (rows_of z n) []
  = row_of (fun k => z (draws_per_respondent * i + k)%nat).
Proof.
  intros Hi. unfold rows_of.
  rewrite (nth_indep _ [] (row_of (fun k => z (draws_per_respondent * 0 + k)%nat)))
    by (rewrite length_map, length_seq; exact Hi).
  rewrite (map_nth (fun i => row_of (fun k => z (draws_per_respondent * i + k)%nat))).
  rewrite seq_nth by exact Hi. reflexivity.
Qed.

Lemma rows_of_shape (z : nat -> Q) (n : nat) :
  Forall (fun row => List.length row = 28%nat /\ Forall in_scale row)
         (rows_of z n).
Proof.
  unfold rows_of. apply Forall_map, Forall_forall. intros i _.
  split; [apply row_of_length | apply row_of_in_scale].
Qed.

Lemma Forall2_map_same {A B : Type} (R : B -> B -> Prop) (f g : A -> B)
      (l : list A) :
  (forall x, R (f x) (g x)) -> Forall2 R (map f l) (map g l).
Proof.
  intros H. induction l as [|x l IH]; cbn [map]; constructor; auto.
Qed.

(** Equal numbers give equal rows, whatever fractions denote them. *)
Lemma base_of_Qeq (z z' : nat -> Q) (j : nat) :
  (forall k, (k < 7)%nat -> z k == z' k) -> base_of z j == base_of z' j.
Proof.
  intros H. unfold base_of.
  pose proof (H 0%nat ltac:(lia)) as H0. pose proof (H 1%nat ltac:(lia)) as H1.
  pose proof (H 2%nat ltac:(lia)) as H2. pose proof (H 3%nat ltac:(lia)) as H3.
  pose proof (H 4%nat ltac:(lia)) as H4. pose proof (H 5%nat ltac:(lia)) as H5.
  pose proof (H 6%nat ltac:(lia)) as H6.
  cbn [factors_of map snd].
  generalize (j / 4)%nat as c. intros c.
  do 7 (destruct c as [|c];
        [ cbn [nth];
          unfold f_TT, f_HL, eps_TT, eps_HL, f_CSVC, f_GV, f_CT, f_NV, f_HP;
          rewrite ?H0, ?H1, ?H2, ?H3, ?H4, ?H5, ?H6; reflexivity |]).
  cbn [nth]. destruct c; reflexivity.
Qed.

Lemma row_of_Qeq (z z' : nat -> Q) :
  (forall k, (k < draws_per_respondent)%nat -> z k == z' k) ->
  row_of z = row_of z'.
Proof.
  unfold draws_per_respondent. intros H. unfold row_of.
  apply map_ext_in. intros j Hj. apply in_seq in Hj.
  apply item_score_Qeq.
  - apply base_of_Qeq. intros k Hk. apply H. lia.
  - unfold noise. rewrite (H (7 + j)%nat) by lia. reflexivity.
Qed.

Lemma rows_of_Qeq (z z' : nat -> Q) (n : nat) :
  (forall k, (k < draws_per_respondent * n)%nat -> z k == z' k) ->
  rows_of z n = rows_of z' n.
Proof.
  intros H. unfold rows_of. apply map_ext_in. intros i Hi.
  apply in_seq in Hi. apply row_of_Qeq. intros k Hk. apply H.
  unfold draws_per_respondent in *. nia.
Qed.

(** The header. *)
Lemma header_concat : header = List.concat (map snd constructs).
Proof. reflexivity. Qed.

Lemma header_plain : Forall plain header.
Proof. repeat constructor. Qed.

Lemma py_str_in_scale (v : Z) :
  in_scale v -> In (py_str v) ["1"; "2"; "3"; "4"; "5"].
Proof.
  unfold in_scale, SCALE_MIN, SCALE_MAX. intros H.
  assert (v = 1 \/ v = 2 \/ v = 3 \/ v = 4 \/ v = 5)%Z
    as [-> | [-> | [-> | [-> | ->]]]] by lia;
    cbn; tauto.
Qed.

Lemma py_str_plain (v : Z) : in_scale v -> plain (py_str v).
Proof.
  intros H. apply py_str_in_scale in H. cbn [In] in H.
  destruct H as [<- | [<- | [<- | [<- | [<- | []]]]]]; reflexivity.
Qed.

Lemma file_rows_plain (z : nat -> Q) (n : nat) :
  Forall (fun fs => fs <> [] /\ Forall plain fs)
         (header :: map (map py_str) (rows_of z n)).
Proof.
  constructor.
  - split; [discriminate | apply header_plain].
  - apply Forall_map. eapply Forall_impl; [|apply rows_of_shape].
    intros row [Hlen Hsc]. split.
    + destruct row; [discriminate | discriminate].
    + apply Forall_map. eapply Forall_impl; [|exact Hsc].
      apply py_str_plain.
Qed.

(** Reading the emitted text gives the header and the rows. *)
Lemma read_csv_text (z : nat -> Q) (n : nat) :
  read (csv_text header (rows_of z n))
  = header :: map (map py_str) (rows_of z n).
Proof. unfold csv_text. apply read_lines, file_rows_plain. Qed.

End RowFacts.

(* ================================================================== *)
(** ** Evaluations *)

Section Examples.

Open Scope string_scope.

Example round_ties :
  map py_round [0.5; 1.5; 2.5; 3.5; 4.5; -0.5; -1.5; -2.5]
  = [0; 2; 2; 4; 4; 0; -2; -2]%Z.
Proof. vm_compute. reflexivity. Qed.

Example round_half_up_ties :
  map round_half_up [0.5; 1.5; 2.5; 3.5; 4.5; -0.5; -1.5; -2.5]
  = [1; 2; 3; 4; 5; 0; -1; -2]%Z.
Proof. vm_compute. reflexivity. Qed.

Example item_score_extremes :
  map (item_score 0) [-1000000; -0.5; 0.4; 0.5; 1.5; 5.49; 5.5; 1000000]
  = [1; 1; 1; 1; 2; 5; 5; 5]%Z.
Proof. vm_compute. reflexivity. Qed.

Example header_value :
  header
  = ["CSVC1"; "CSVC2"; "CSVC3"; "CSVC4"; "GV1"; "GV2"; "GV3"; "GV4";
     "CT1"; "CT2"; "CT3"; "CT4"; "NV1"; "NV2"; "NV3"; "NV4";
     "HP1"; "HP2"; "HP3"; "HP4"; "HL1"; "HL2"; "HL3"; "HL4";
     "TT1"; "TT2"; "TT3"; "TT4"].
Proof. reflexivity. Qed.

(** With every draw at its mean the row is [round(mean)] per
    construct. *)
Example mean_row :
  fst (respondent mean_world)
  = Returned [4; 4; 4; 4;  4; 4; 4; 4;  4; 4; 4; 4;  3; 3; 3; 3;
              3; 3; 3; 3;  4; 4; 4; 4;  3; 3; 3; 3]%Z.
Proof. vm_compute. reflexivity. Qed.

Example cycle_row :
  fst (respondent cycle_world)
  = Returned [1; 2; 2; 2;  4; 4; 4; 2;  3; 3; 3; 4;  4; 4; 2; 3;
              3; 3; 4; 4;  5; 3; 3; 3;  4; 4; 4; 4]%Z.
Proof. vm_compute. reflexivity. Qed.

Example two_rows_text :
  csv_text header [[1; 2]; [5; 4]]%Z
  = String.concat Csv.lineterminator
      [ String.concat "," header; "1,2"; "5,4"; "" ].
Proof. vm_compute. reflexivity. Qed.

Example readonly_run :
  fst (main readonly_world) = Raised OSError
  /\ disk (snd (main readonly_world)) = None
  /\ stdout (snd (main readonly_world)) = [].
Proof. rewrite main_run. cbn. auto. Qed.

End Examples.

(* ================================================================== *)
(** ** The claims *)

Section Claims.

Open Scope string_scope.

(** C1.  Whatever the generator hands out, each data row of the
    written file holds 28 integer scores and each score lies in
    [SCALE_MIN, SCALE_MAX] = [1, 5]. *)
Theorem emitted_scores_in_scale (w : world) :
  writable w = true ->
  exists (data : list (list Z)) (w' : world),
    main w = (Returned tt, w') /\
    disk w' = Some (csv_text header data) /\
    read (csv_text header data) = header :: map (map py_str) data /\
    Forall (fun row =>
              List.length row = 28%nat /\
              Forall (fun v => (1 <= v <= 5)%Z /\
                               (SCALE_MIN <= v <= SCALE_MAX)%Z) row)
           data.
Proof.
  intros Hw. rewrite main_run, Hw.
  exists (rows_of (draw w) NUM_RESPONDENTS). eexists.
  split; [reflexivity|]. split; [reflexivity|].
  split; [apply read_csv_text|].
  eapply Forall_impl; [|apply rows_of_shape].
  intros row [Hlen Hsc]. split; [exact Hlen|].
  eapply Forall_impl; [|exact Hsc].
  unfold in_scale, SCALE_MIN, SCALE_MAX. intros v Hv. split; exact Hv.
Qed.

Lemma emitted_scores_in_scale_witness :
  writable cycle_world = true /\
  exists (data : list (list Z)) (w' : world),
    main cycle_world = (Returned tt, w') /\
    disk w' = Some (csv_text header data) /\
    read (csv_text header data) = header :: map (map py_str) data /\
    Forall (fun row =>
              List.length row = 28%nat /\
              Forall (fun v => (1 <= v <= 5)%Z /\
                               (SCALE_MIN <= v <= SCALE_MAX)%Z) row)
           data.
Proof.
  split; [reflexivity|].
  apply (emitted_scores_in_scale cycle_world). reflexivity.
Defined.

(** C2, as the specification words it, fails: the first item of
    [tie_world] has latent value 3.5 + 0.8 * -1.25 = 2.5 and noise
    0 + 0.6 * 0 = 0 (both exact in binary64 as well); the script stores
    [round(2.5) = 2], rounding the half up gives 3. *)
Lemma item_rounding_counterexample :
  exists (row : list Z) (w' : world),
    respondent tie_world = (Returned row, w') /\
    base_of (draw tie_world) 0 + noise (draw tie_world) 0 == 2.5 /\
    nth 0 row 0%Z = 2%Z /\
    spec_item_score (base_of (draw tie_world) 0) (noise (draw tie_world) 0)
    = 3%Z.
Proof.
  eexists. eexists. split; [apply respondent_run|].
  split; [reflexivity|]. split; vm_compute; reflexivity.
Qed.

(** C2, amended.  For every item of every construct the stored score
    is the construct's latent value plus the item's own noise draw
    (0 + 0.6 times a fresh variate), rounded to a nearest integer
    with a tie going to the even neighbour, then clamped into
    [SCALE_MIN, SCALE_MAX], in that order.  It is the score of the
    half-up rule except when the sum is an even integer plus one
    half. *)
Theorem item_score_rounds_half_even (w : world) :
  exists (row : list Z) (w' : world),
    respondent w = (Returned row, w') /\
    forall j, (j < 28)%nat ->
      exists (code : string) (latent : Q),
        owner (nth j header "") = Some code /\
        dict_get (factors_of (draw w)) code = Some latent /\
        noise (draw w) j = 0 + 0.6 * draw w (7 + j) /\
        nth j row 0%Z
        = py_max SCALE_MIN
            (py_min SCALE_MAX (py_round (latent + noise (draw w) j))) /\
        Qabs (latent + noise (draw w) j
              - inject_Z (py_round (latent + noise (draw w) j))) <= 0.5 /\
        (Qabs (latent + noise (draw w) j
               - inject_Z (py_round (latent + noise (draw w) j))) == 0.5 ->
         Z.even (py_round (latent + noise (draw w) j)) = true) /\
        (~ even_tie (latent + noise (draw w) j) ->
         nth j row 0%Z = spec_item_score latent (noise (draw w) j)).
Proof.
  exists (row_of (draw w)). eexists. split; [apply respondent_run|].
  intros j Hj. rewrite (nth_row_of _ j Hj).
  assert (Hown : exists code,
             owner (nth j header "") = Some code /\
             dict_get (factors_of (draw w)) code
             = Some (base_of (draw w) j)).
  { do 28 (destruct j as [|j]; [eexists; split; reflexivity|]). lia. }
  destruct Hown as (code & Ho & Hg).
  exists code, (base_of (draw w) j).
  split; [exact Ho|]. split; [exact Hg|]. split; [reflexivity|].
  split; [reflexivity|]. split; [apply py_round_nearest|].
  split; [apply py_round_tie_even|].
  intros Hn. unfold item_score, spec_item_score, py_int.
  rewrite (py_round_half_up _ Hn). apply clamp_max_min.
Qed.

(** C3.  In every iteration the satisfaction latent value is
    0.3*f_GV + 0.3*f_CT + 0.2*f_CSVC + 0.1*f_NV + 0.1*f_HP + eps,
    where the five factors are the iteration's five independent
    draws and eps is its sixth draw, a normal draw of mean 0 and
    sd 0.5. *)
Theorem satisfaction_latent_value (w : world) :
  exists (factors : dict Q) (w' : world) (gv ct csvc nv hp eps : Q),
    draw_factors w = (Returned factors, w') /\
    csvc = mu_CSVC + 0.8 * draw w 0 /\
    gv = mu_GV + 0.7 * draw w 1 /\
    ct = mu_CT + 0.75 * draw w 2 /\
    nv = mu_NV + 0.9 * draw w 3 /\
    hp = mu_HP + 0.85 * draw w 4 /\
    eps = 0 + 0.5 * draw w 5 /\
    dict_get factors "CSVC" = Some csvc /\
    dict_get factors "GV" = Some gv /\
    dict_get factors "CT" = Some ct /\
    dict_get factors "NV" = Some nv /\
    dict_get factors "HP" = Some hp /\
    dict_get factors "HL"
    = Some (0.3 * gv + 0.3 * ct + 0.2 * csvc + 0.1 * nv + 0.1 * hp + eps).
Proof.
  exists (factors_of (draw w)), (advance 7 w).
  exists (f_GV (draw w)), (f_CT (draw w)), (f_CSVC (draw w)),
    (f_NV (draw w)), (f_HP (draw w)), (eps_HL (draw w)).
  split; [apply draw_factors_run|].
  repeat split; reflexivity.
Qed.

(** C4.  In every iteration the loyalty latent value is
    0.8 * f_HL + eps, where f_HL is the satisfaction latent value and
    eps the iteration's seventh draw, a normal draw of mean 0 and
    sd 0.4. *)
Theorem loyalty_latent_value (w : world) :
  exists (factors : dict Q) (w' : world) (hl eps : Q),
    draw_factors w = (Returned factors, w') /\
    eps = 0 + 0.4 * draw w 6 /\
    dict_get factors "HL" = Some hl /\
    dict_get factors "TT" = Some (0.8 * hl + eps).
Proof.
  exists (factors_of (draw w)), (advance 7 w).
  exists (f_HL (draw w)), (eps_TT (draw w)).
  split; [apply draw_factors_run|].
  repeat split; reflexivity.
Qed.

(** C5.  When the file can be written, reading it back gives the
    header row followed by exactly NUM_RESPONDENTS = 150 data rows,
    whatever the generator hands out. *)
Theorem dataset_row_count (w : world) :
  writable w = true ->
  exists (text : string) (w' : world) (rows : list (list string)),
    main w = (Returned tt, w') /\
    disk w' = Some text /\
    read text = header :: rows /\
    List.length rows = NUM_RESPONDENTS /\
    NUM_RESPONDENTS = 150%nat /\
    List.length (read text) = 151%nat.
Proof.
  intros Hw. rewrite main_run, Hw.
  eexists. eexists.
  exists (map (map py_str) (rows_of (draw w) NUM_RESPONDENTS)).
  split; [reflexivity|]. split; [reflexivity|].
  split; [apply read_csv_text|].
  assert (Hlen : List.length
                   (map (map py_str) (rows_of (draw w) NUM_RESPONDENTS))
                 = NUM_RESPONDENTS)
    by (rewrite length_map; apply rows_of_length).
  split; [exact Hlen|]. split; [reflexivity|].
  rewrite read_csv_text. cbn [List.length]. rewrite Hlen. reflexivity.
Qed.

Lemma dataset_row_count_witness :
  writable cycle_world = true /\
  exists (text : string) (w' : world) (rows : list (list string)),
    main cycle_world = (Returned tt, w') /\
    disk w' = Some text /\
    read text = header :: rows /\
    List.length rows = NUM_RESPONDENTS /\
    NUM_RESPONDENTS = 150%nat /\
    List.length (read text) = 151%nat.
Proof.
  split; [reflexivity|].
  apply (dataset_row_count cycle_world). reflexivity.
Defined.

(** C6.  The header has exactly 28 entries: the item lists of the
    constructs, four items each, one after the other in declaration
    order (CSVC, GV, CT, NV, HP, HL, TT).  Every row an iteration
    makes has 28 values in that same order: the value in column [j]
    is the item score made from the latent value of the construct
    that owns the header's [j]-th name and from the [j]-th item
    noise. *)
Theorem column_order (w : world) :
  header = List.concat (map snd constructs) /\
  map fst constructs = ["CSVC"; "GV"; "CT"; "NV"; "HP"; "HL"; "TT"] /\
  Forall (fun c => List.length (snd c) = 4%nat) constructs /\
  List.length header = 28%nat /\
  exists (row : list Z) (w' : world),
    respondent w = (Returned row, w') /\
    List.length row = 28%nat /\
    forall j, (j < 28)%nat ->
      exists (code : string) (items : list string) (latent : Q),
        nth (j / 4) constructs ("", []) = (code, items) /\
        nth (j mod 4) items "" = nth j header "" /\
        owner (nth j header "") = Some code /\
        dict_get (factors_of (draw w)) code = Some latent /\
        nth j row 0%Z = item_score latent (noise (draw w) j).
Proof.
  split; [reflexivity|]. split; [reflexivity|].
  split; [repeat constructor|]. split; [reflexivity|].
  exists (row_of (draw w)). eexists. split; [apply respondent_run|].
  split; [apply row_of_length|].
  intros j Hj. rewrite (nth_row_of _ j Hj).
  assert (Hown : exists code items,
             nth (j / 4) constructs ("", []) = (code, items) /\
             nth (j mod 4) items "" = nth j header "" /\
             owner (nth j header "") = Some code /\
             dict_get (factors_of (draw w)) code
             = Some (base_of (draw w) j)).
  { do 28 (destruct j as [|j];
           [eexists; eexists; repeat split; reflexivity|]). lia. }
  destruct Hown as (code & items & Hc & Hi & Ho & Hg).
  exists code, items, (base_of (draw w) j). auto.
Qed.

(** C7.  Two runs whose generators hand out the same numbers make
    the same rows in the same order, row [i] being made from the
    draws of iteration [i] alone; with N = NUM_RESPONDENTS and a
    writable path both runs leave the same file text. *)
Theorem generation_deterministic (n : nat) (w1 w2 : world) :
  same_draws (draws_per_respondent * n) w1 w2 ->
  exists (data : list (list Z)) (w1' w2' : world),
    generate n w1 = (Returned data, w1') /\
    generate n w2 = (Returned data, w2') /\
    (forall i, (i < n)%nat ->
       nth i data []
       = row_of (fun k => draw w1 (draws_per_respondent * i + k)%nat)) /\
    (n = NUM_RESPONDENTS ->
     writable w1 = true -> writable w2 = true ->
     disk (snd (main w1)) = Some (csv_text header data) /\
     disk (snd (main w2)) = Some (csv_text header data)).
Proof.
  unfold same_draws. intros H.
  exists (rows_of (draw w1) n). eexists. eexists.
  split; [apply generate_run|].
  split; [rewrite (rows_of_Qeq _ _ n H); apply generate_run|].
  split; [intros i Hi; apply nth_rows_of; exact Hi|].
  intros -> Hw1 Hw2. rewrite !main_run, Hw1, Hw2.
  cbn [snd disk]. rewrite (rows_of_Qeq _ _ _ H). auto.
Qed.

Lemma cycle_worlds_same_draws (m : nat) :
  same_draws m cycle_world cycle_world'.
Proof.
  intros k _. unfold draw, cycle_world, cycle_world', cycle, cycle'.
  cbn [variates cursor].
  replace (k + 3 - 3)%nat with k by lia. rewrite Nat.add_0_r.
  unfold Qeq. cbn [Qnum Qden]. lia.
Qed.

Lemma generation_deterministic_witness :
  same_draws (draws_per_respondent * NUM_RESPONDENTS)
             cycle_world cycle_world' /\
  exists (data : list (list Z)) (w1' w2' : world),
    generate NUM_RESPONDENTS cycle_world = (Returned data, w1') /\
    generate NUM_RESPONDENTS cycle_world' = (Returned data, w2') /\
    (forall i, (i < NUM_RESPONDENTS)%nat ->
       nth i data []
       = row_of (fun k =>
                   draw cycle_world (draws_per_respondent * i + k)%nat)) /\
    disk (snd (main cycle_world)) = Some (csv_text header data) /\
    disk (snd (main cycle_world')) = Some (csv_text header data).
Proof.
  split; [apply cycle_worlds_same_draws|].
  destruct (generation_deterministic NUM_RESPONDENTS cycle_world
              cycle_world' (cycle_worlds_same_draws _))
    as (data & w1' & w2' & H1 & H2 & H3 & H4).
  exists data, w1', w2'.
  split; [exact H1|]. split; [exact H2|]. split; [exact H3|].
  apply H4; reflexivity.
Defined.

(** C8.  When the file can be written the script prints exactly one
    line, and the counts that line states are the number of data
    rows (NUM_RESPONDENTS = 150) and the number of columns (28) of
    the file it wrote. *)
Theorem confirmation_line (w : world) :
  writable w = true ->
  exists (text : string) (w' : world) (rows : list (list string)),
    main w = (Returned tt, w') /\
    stdout w' = (stdout w ++ [confirmation])%list /\
    disk w' = Some text /\
    read text = header :: rows /\
    List.length rows = NUM_RESPONDENTS /\
    Forall (fun r => List.length r = 28%nat) (header :: rows) /\
    confirmation
    = "Generated sample_data_large.csv with "
        ++ py_str (Z.of_nat (List.length rows)) ++ " rows and "
        ++ py_str (Z.of_nat (List.length header)) ++ " columns.".
Proof.
  intros Hw. rewrite main_run, Hw.
  eexists. eexists.
  exists (map (map py_str) (rows_of (draw w) NUM_RESPONDENTS)).
  split; [reflexivity|]. split; [reflexivity|]. split; [reflexivity|].
  split; [apply read_csv_text|].
  assert (Hlen : List.length
                   (map (map py_str) (rows_of (draw w) NUM_RESPONDENTS))
                 = NUM_RESPONDENTS)
    by (rewrite length_map; apply rows_of_length).
  split; [exact Hlen|]. split.
  - constructor; [reflexivity|].
    apply Forall_map. eapply Forall_impl; [|apply rows_of_shape].
    intros row [Hrow _]. rewrite length_map. exact Hrow.
  - rewrite Hlen. vm_compute. reflexivity.
Qed.

Lemma confirmation_line_witness :
  writable cycle_world = true /\
  exists (text : string) (w' : world) (rows : list (list string)),
    main cycle_world = (Returned tt, w') /\
    stdout w' = (stdout cycle_world ++ [confirmation])%list /\
    disk w' = Some text /\
    read text = header :: rows /\
    List.length rows = NUM_RESPONDENTS /\
    Forall (fun r => List.length r = 28%nat) (header :: rows) /\
    confirmation
    = "Generated sample_data_large.csv with "
        ++ py_str (Z.of_nat (List.length rows)) ++ " rows and "
        ++ py_str (Z.of_nat (List.length header)) ++ " columns.".
Proof.
  split; [reflexivity|].
  apply (confirmation_line cycle_world). reflexivity.
Defined.

(** C9.  For a fixed item noise the item score never decreases when
    the latent value grows: rounding, then clamping, keeps order.  So
    the item loop, run from the same generator on latent values
    [a <= b], gives scores that are pairwise in that order. *)
Theorem item_score_monotone (noise a b : Q) (items : list string)
        (w : world) :
  a <= b ->
  (item_score a noise <= item_score b noise)%Z /\
  exists (row_a row_b : list Z) (w' : world),
    score_items a items [] w = (Returned row_a, w') /\
    score_items b items [] w = (Returned row_b, w') /\
    Forall2 Z.le row_a row_b.
Proof.
  intros Hab.
  assert (Hmono : forall e, (item_score a e <= item_score b e)%Z).
  { intros e. unfold item_score, py_int.
    apply clamp_mono, py_round_mono. lra. }
  split; [apply Hmono|].
  eexists. eexists. eexists.
  split; [apply score_items_run|]. split; [apply score_items_run|].
  cbn [app]. apply Forall2_map_same. intros j. apply Hmono.
Qed.

Lemma item_score_monotone_witness :
  2.4 <= 2.6 /\
  (item_score 2.4 0.1 <= item_score 2.6 0.1)%Z /\
  exists (row_a row_b : list Z) (w' : world),
    score_items 2.4 ["GV1"; "GV2"; "GV3"; "GV4"] [] cycle_world
    = (Returned row_a, w') /\
    score_items 2.6 ["GV1"; "GV2"; "GV3"; "GV4"] [] cycle_world
    = (Returned row_b, w') /\
    Forall2 Z.le row_a row_b.
Proof.
  split; [unfold Qle; cbn; lia|].
  apply (item_score_monotone 0.1 2.4 2.6). unfold Qle; cbn; lia.
Defined.

(** C10.  Over exact arithmetic the satisfaction weights sum to 1:
    when the five independent latent values all equal [v] and the
    satisfaction noise is zero, the satisfaction latent value is
    [v]. *)
Theorem satisfaction_weights_average (w : world) (v : Q) :
  f_GV (draw w) == v -> f_CT (draw w) == v -> f_CSVC (draw w) == v ->
  f_NV (draw w) == v -> f_HP (draw w) == v -> eps_HL (draw w) == 0 ->
  0.3 + 0.3 + 0.2 + 0.1 + 0.1 == 1 /\
  exists (factors : dict Q) (w' : world) (hl : Q),
    draw_factors w = (Returned factors, w') /\
    dict_get factors "GV" = Some (f_GV (draw w)) /\
    dict_get factors "CT" = Some (f_CT (draw w)) /\
    dict_get factors "CSVC" = Some (f_CSVC (draw w)) /\
    dict_get factors "NV" = Some (f_NV (draw w)) /\
    dict_get factors "HP" = Some (f_HP (draw w)) /\
    dict_get factors "HL" = Some hl /\
    hl == v.
Proof.
  intros Hgv Hct Hcsvc Hnv Hhp Heps. split; [reflexivity|].
  exists (factors_of (draw w)), (advance 7 w), (f_HL (draw w)).
  split; [apply draw_factors_run|].
  do 6 (split; [reflexivity|]).
  unfold f_HL. rewrite Hgv, Hct, Hcsvc, Hnv, Hhp, Heps. ring.
Qed.

Lemma satisfaction_weights_average_witness :
  (f_GV (draw level_world) == 3 /\ f_CT (draw level_world) == 3 /\
   f_CSVC (draw level_world) == 3 /\ f_NV (draw level_world) == 3 /\
   f_HP (draw level_world) == 3 /\ eps_HL (draw level_world) == 0) /\
  0.3 + 0.3 + 0.2 + 0.1 + 0.1 == 1 /\
  exists (factors : dict Q) (w' : world) (hl : Q),
    draw_factors level_world = (Returned factors, w') /\
    dict_get factors "GV" = Some (f_GV (draw level_world)) /\
    dict_get factors "CT" = Some (f_CT (draw level_world)) /\
    dict_get factors "CSVC" = Some (f_CSVC (draw level_world)) /\
    dict_get factors "NV" = Some (f_NV (draw level_world)) /\
    dict_get factors "HP" = Some (f_HP (draw level_world)) /\
    dict_get factors "HL" = Some hl /\
    hl == 3.
Proof.
  split; [repeat split; reflexivity|].
  apply (satisfaction_weights_average level_world 3); reflexivity.
Defined.

End Claims.

(* ================================================================== *)
(** ** Further properties of the script *)

Section Extras.

Open Scope string_scope.

(** X1.  When the output path cannot be opened the script raises
    [OSError]: it prints nothing and leaves the file as it was, yet it
    has already generated all the data, the generator being
    35 * NUM_RESPONDENTS variates further. *)
Theorem unwritable_path_fails (w : world) :
  writable w = false ->
  exists (w' : world),
    main w = (Raised OSError, w') /\
    disk w' = disk w /\
    stdout w' = stdout w /\
    variates w' = variates w /\
    cursor w' = (draws_per_respondent * NUM_RESPONDENTS + cursor w)%nat.
Proof.
  intros Hw. rewrite main_run, Hw. eexists.
  split; [reflexivity|]. repeat split.
Qed.

Lemma unwritable_path_fails_witness :
  writable readonly_world = false /\
  exists (w' : world),
    main readonly_world = (Raised OSError, w') /\
    disk w' = disk readonly_world /\
    stdout w' = stdout readonly_world /\
    variates w' = variates readonly_world /\
    cursor w'
    = (draws_per_respondent * NUM_RESPONDENTS + cursor readonly_world)%nat.
Proof.
  split; [reflexivity|].
  apply (unwritable_path_fails readonly_world). reflexivity.
Defined.

(** X2.  Generating [n] respondents takes exactly 35 * n variates from
    the generator, in order, and touches neither the file nor the
    printed lines. *)
Theorem generate_consumes (n : nat) (w : world) :
  exists (data : list (list Z)) (w' : world),
    generate n w = (Returned data, w') /\
    List.length data = n /\
    cursor w' = (35 * n + cursor w)%nat /\
    variates w' = variates w /\
    writable w' = writable w /\
    disk w' = disk w /\
    stdout w' = stdout w.
Proof.
  exists (rows_of (draw w) n), (advance (draws_per_respondent * n) w).
  split; [apply generate_run|]. split; [apply rows_of_length|].
  repeat split.
Qed.

Lemma map_seq_from {A : Type} (f : nat -> A) (m n : nat) :
  map f (seq m n) = map (fun i => f (m + i)%nat) (seq 0 n).
Proof.
  revert f. induction m as [|m IH]; intros f; [reflexivity|].
  rewrite <- seq_shift, map_map, IH. reflexivity.
Qed.

Lemma rows_of_app (w : world) (m n : nat) :
  rows_of (draw w) (m + n)
  = (rows_of (draw w) m
     ++ rows_of (draw (advance (draws_per_respondent * m) w)) n)%list.
Proof.
  unfold rows_of. rewrite seq_app, map_app. f_equal.
  cbn [Nat.add]. rewrite map_seq_from. apply map_ext. intros i.
  apply row_of_ext. intros k _. rewrite draw_advance. f_equal. lia.
Qed.

Lemma lines_app (r1 r2 : list (list string)) :
  fold_right String.append "" (map Csv.line (r1 ++ r2))
  = fold_right String.append "" (map Csv.line r1)
    ++ fold_right String.append "" (map Csv.line r2).
Proof.
  induction r1 as [|r r1 IH]; [reflexivity|].
  cbn [app map fold_right]. rewrite IH, string_app_assoc. reflexivity.
Qed.

(** X3.  Generating [m + n] respondents is generating [m] and then
    [n] more from where the generator stands: the first [m] rows do
    not depend on how many follow, and the file for the [m] rows is
    the beginning of the file for all [m + n]. *)
Theorem generate_prefix (m n : nat) (w : world) :
  exists (d1 d2 : list (list Z)) (w1 w2 : world),
    generate m w = (Returned d1, w1) /\
    generate n w1 = (Returned d2, w2) /\
    generate (m + n) w = (Returned (d1 ++ d2)%list, w2) /\
    csv_text header (d1 ++ d2)
    = csv_text header d1
      ++ fold_right String.append "" (map Csv.line (map (map py_str) d2)).
Proof.
  exists (rows_of (draw w) m).
  exists (rows_of (draw (advance (draws_per_respondent * m) w)) n).
  exists (advance (draws_per_respondent * m) w).
  exists (advance (draws_per_respondent * n)
                  (advance (draws_per_respondent * m) w)).
  split; [apply generate_run|]. split; [apply generate_run|]. split.
  - rewrite generate_run, rows_of_app, advance_advance.
    f_equal. f_equal. lia.
  - unfold csv_text. rewrite map_app.
    change (header :: (map (map py_str) (rows_of (draw w) m)
                       ++ map (map py_str)
                            (rows_of
                               (draw (advance (draws_per_respondent * m) w))
                               n))%list)
      with ((header :: map (map py_str) (rows_of (draw w) m))
            ++ map (map py_str)
                 (rows_of (draw (advance (draws_per_respondent * m) w)) n))%list.
    apply lines_app.
Qed.

(** [int(str(v))] is [v]. *)
Lemma parse_int_py_str (v : Z) : parse_int (py_str v) = Some v.
Proof.
  unfold parse_int, py_str.
  rewrite NilZero.isi.
  - cbn [option_map]. rewrite DecimalZ.of_to. reflexivity.
  - destruct v as [|p|p]; cbn [Z.to_int]; try discriminate.
    intros H. injection H as H. exact (Unsigned.to_uint_nonnil p H).
  - destruct v as [|p|p]; cbn [Z.to_int]; try discriminate.
    intros H. injection H as H. exact (Unsigned.to_uint_nonnil p H).
Qed.

Lemma parse_int_row (row : list Z) :
  map parse_int (map py_str row) = map Some row.
Proof.
  rewrite map_map. apply map_ext. apply parse_int_py_str.
Qed.

(** X4.  The data survives the file: reading the written text back
    and parsing every field of every data row with [int] gives
    exactly the rows the loop generated. *)
Theorem data_round_trip (w : world) :
  writable w = true ->
  exists (text : string) (w' wg : world) (rows : list (list string))
         (data : list (list Z)),
    main w = (Returned tt, w') /\
    disk w' = Some text /\
    generate NUM_RESPONDENTS w = (Returned data, wg) /\
    read text = header :: rows /\
    map (map parse_int) rows = map (map Some) data.
Proof.
  intros Hw. rewrite main_run, Hw.
  eexists. eexists. eexists.
  exists (map (map py_str) (rows_of (draw w) NUM_RESPONDENTS)).
  exists (rows_of (draw w) NUM_RESPONDENTS).
  split; [reflexivity|]. split; [reflexivity|].
  split; [apply generate_run|]. split; [apply read_csv_text|].
  rewrite !map_map. apply map_ext. apply parse_int_row.
Qed.

Lemma data_round_trip_witness :
  writable cycle_world = true /\
  exists (text : string) (w' wg : world) (rows : list (list string))
         (data : list (list Z)),
    main cycle_world = (Returned tt, w') /\
    disk w' = Some text /\
    generate NUM_RESPONDENTS cycle_world = (Returned data, wg) /\
    read text = header :: rows /\
    map (map parse_int) rows = map (map Some) data.
Proof.
  split; [reflexivity|].
  apply (data_round_trip cycle_world). reflexivity.
Defined.

Lemma string_length_app (a b : string) :
  String.length (a ++ b) = (String.length a + String.length b)%nat.
Proof. induction a as [|c a IH]; cbn; [reflexivity|]. now rewrite IH. Qed.

(** Fields of one character that need no quoting, joined by commas. *)
Lemma joined_length (fs : list string) :
  Forall (fun f => plain f /\ String.length f = 1%nat) fs ->
  String.length (String.concat "," (map Csv.field fs))
  = (2 * List.length fs - 1)%nat.
Proof.
  induction fs as [|f fs IH]; intros H; [reflexivity|].
  inversion H as [|? ? [Hp Hl] H']; subst.
  destruct fs as [|g fs].
  - cbn [map String.concat List.length]. rewrite (field_plain f Hp), Hl.
    reflexivity.
  - change (String.concat "," (map Csv.field (f :: g :: fs)))
      with (Csv.field f ++ "," ++ String.concat "," (map Csv.field (g :: fs))).
    rewrite !string_length_app, (field_plain f Hp), Hl, (IH H').
    cbn [List.length String.length]. lia.
Qed.

Lemma data_line_length (row : list Z) :
  List.length row = 28%nat -> Forall in_scale row ->
  String.length (Csv.line (map py_str row)) = 57%nat.
Proof.
  intros Hlen Hsc. unfold Csv.line.
  rewrite string_length_app.
  change (String Csv.comma "") with ",".
  rewrite joined_length.
  - rewrite length_map, Hlen. reflexivity.
  - apply Forall_map. eapply Forall_impl; [|exact Hsc].
    intros v Hv. split; [apply py_str_plain; exact Hv|].
    apply py_str_in_scale in Hv. cbn [In] in Hv.
    destruct Hv as [<- | [<- | [<- | [<- | [<- | []]]]]]; reflexivity.
Qed.

Lemma data_lines_length (rows : list (list Z)) :
  Forall (fun row => List.length row = 28%nat /\ Forall in_scale row) rows ->
  String.length
    (fold_right String.append "" (map Csv.line (map (map py_str) rows)))
  = (57 * List.length rows)%nat.
Proof.
  induction rows as [|row rows IH]; intros H; [reflexivity|].
  inversion H as [|? ? [Hlen Hsc] H']; subst.
  cbn [map fold_right List.length].
  rewrite string_length_app, (data_line_length row Hlen Hsc), (IH H').
  lia.
Qed.

(** X5.  The file has a fixed size: the header line takes 121 bytes
    and every data line 57 (28 one-digit scores, 27 commas, CR LF),
    8671 bytes for the 150 respondents, whatever was drawn. *)
Theorem file_size (w : world) :
  writable w = true ->
  exists (text : string) (w' : world),
    main w = (Returned tt, w') /\
    disk w' = Some text /\
    String.length (Csv.line header) = 121%nat /\
    String.length text = (121 + 57 * NUM_RESPONDENTS)%nat /\
    Z.of_nat (String.length text) = 8671%Z.
Proof.
  intros Hw. rewrite main_run, Hw. eexists. eexists.
  split; [reflexivity|]. split; [reflexivity|].
  split; [reflexivity|].
  assert (Hsize : String.length
                    (csv_text header (rows_of (draw w) NUM_RESPONDENTS))
                  = (121 + 57 * NUM_RESPONDENTS)%nat).
  { unfold csv_text. cbn [map fold_right].
    rewrite string_length_app, data_lines_length by apply rows_of_shape.
    rewrite rows_of_length. reflexivity. }
  split; [exact Hsize|]. rewrite Hsize. vm_compute. reflexivity.
Qed.

Lemma file_size_witness :
  writable cycle_world = true /\
  exists (text : string) (w' : world),
    main cycle_world = (Returned tt, w') /\
    disk w' = Some text /\
    String.length (Csv.line header) = 121%nat /\
    String.length text = (121 + 57 * NUM_RESPONDENTS)%nat /\
    Z.of_nat (String.length text) = 8671%Z.
Proof.
  split; [reflexivity|].
  apply (file_size cycle_world). reflexivity.
Defined.

(** What [round] returns, without absolute values. *)
Lemma py_round_spec (x : Q) :
  x - 0.5 <= inject_Z (py_round x) /\
  inject_Z (py_round x) <= x + 0.5 /\
  (inject_Z (py_round x) == x - 0.5 \/ inject_Z (py_round x) == x + 0.5 ->
   Z.even (py_round x) = true).
Proof.
  pose proof (py_round_nearest x) as Hn.
  pose proof (py_round_tie_even x) as Ht.
  apply Qabs_Qle_condition in Hn. destruct Hn as [H1 H2].
  split; [lra|]. split; [lra|].
  intros H. apply Ht. apply Qabs_case; intros; destruct H; lra.
Qed.

Lemma clamp_cases (v : Z) :
  (v <= 1 /\ py_max SCALE_MIN (py_min SCALE_MAX v) = 1)%Z \/
  (1 <= v <= 5 /\ py_max SCALE_MIN (py_min SCALE_MAX v) = v)%Z \/
  (5 <= v /\ py_max SCALE_MIN (py_min SCALE_MAX v) = 5)%Z.
Proof.
  unfold py_max, py_min, SCALE_MIN, SCALE_MAX.
  destruct (Z.ltb_spec v 5) as [H5|H5].
  - destruct (Z.ltb_spec 1 v) as [H1|H1]; [right; left|left]; lia.
  - right; right. cbn. lia.
Qed.

Lemma Zle_of_Qlt (a b : Z) : inject_Z a < inject_Z b + 1 -> (a <= b)%Z.
Proof.
  intros H. rewrite <- inject_Z_succ in H. rewrite <- Zlt_Qlt in H. lia.
Qed.

(** The five bins of the scale, one direction. *)
Lemma item_score_of_bin (b n : Q) :
  (b + n < 1.5 -> item_score b n = 1%Z) /\
  (1.5 <= b + n -> b + n <= 2.5 -> item_score b n = 2%Z) /\
  (2.5 < b + n -> b + n < 3.5 -> item_score b n = 3%Z) /\
  (3.5 <= b + n -> b + n <= 4.5 -> item_score b n = 4%Z) /\
  (4.5 < b + n -> item_score b n = 5%Z).
Proof.
  unfold item_score, py_int.
  destruct (py_round_spec (b + n)) as (Hlo & Hhi & Hev).
  set (v := b + n) in *. set (r := py_round v) in *.
  assert (Hodd1 : r = 1%Z -> ~ (v == 0.5 \/ v == 1.5)).
  { intros E [H|H]; rewrite E in Hev;
      (assert (Z.even 1 = true) as F
         by (apply Hev; change (inject_Z 1) with 1; lra));
      discriminate F. }
  assert (Hodd3 : r = 3%Z -> ~ (v == 2.5 \/ v == 3.5)).
  { intros E [H|H]; rewrite E in Hev;
      (assert (Z.even 3 = true) as F
         by (apply Hev; change (inject_Z 3) with 3; lra));
      discriminate F. }
  assert (Hodd5 : r = 5%Z -> ~ (v == 4.5 \/ v == 5.5)).
  { intros E [H|H]; rewrite E in Hev;
      (assert (Z.even 5 = true) as F
         by (apply Hev; change (inject_Z 5) with 5; lra));
      discriminate F. }
  repeat split.
  - intros H.
    assert (r <= 1)%Z by (apply Zle_of_Qlt; change (inject_Z 1) with 1; lra).
    destruct (clamp_cases r) as [[? E]|[[? E]|[? E]]]; rewrite E; lia.
  - intros H1 H2.
    assert (r <= 3)%Z by (apply Zle_of_Qlt; change (inject_Z 3) with 3; lra).
    assert (1 <= r)%Z by (apply Zle_of_Qlt; change (inject_Z 1) with 1; lra).
    assert (r <> 1)%Z by (intros E; apply (Hodd1 E); right;
                          rewrite E in Hlo, Hhi;
                          change (inject_Z 1) with 1 in Hlo, Hhi; lra).
    assert (r <> 3)%Z by (intros E; apply (Hodd3 E); left;
                          rewrite E in Hlo, Hhi;
                          change (inject_Z 3) with 3 in Hlo, Hhi; lra).
    destruct (clamp_cases r) as [[? E]|[[? E]|[? E]]]; rewrite E; lia.
  - intros H1 H2.
    assert (r <= 3)%Z by (apply Zle_of_Qlt; change (inject_Z 3) with 3; lra).
    assert (3 <= r)%Z by (apply Zle_of_Qlt; change (inject_Z 3) with 3; lra).
    destruct (clamp_cases r) as [[? E]|[[? E]|[? E]]]; rewrite E; lia.
  - intros H1 H2.
    assert (r <= 5)%Z by (apply Zle_of_Qlt; change (inject_Z 5) with 5; lra).
    assert (3 <= r)%Z by (apply Zle_of_Qlt; change (inject_Z 3) with 3; lra).
    assert (r <> 3)%Z by (intros E; apply (Hodd3 E); right;
                          rewrite E in Hlo, Hhi;
                          change (inject_Z 3) with 3 in Hlo, Hhi; lra).
    assert (r <> 5)%Z by (intros E; apply (Hodd5 E); left;
                          rewrite E in Hlo, Hhi;
                          change (inject_Z 5) with 5 in Hlo, Hhi; lra).
    destruct (clamp_cases r) as [[? E]|[[? E]|[? E]]]; rewrite E; lia.
  - intros H.
    assert (5 <= r)%Z by (apply Zle_of_Qlt; change (inject_Z 5) with 5; lra).
    destruct (clamp_cases r) as [[? E]|[[? E]|[? E]]]; rewrite E; lia.
Qed.

Ltac settle_bin :=
  repeat split; intros;
  repeat match goal with H : _ /\ _ |- _ => destruct H end;
  first [ lia | lra | exfalso; lra ].

(** X6.  The score as a function of latent value plus noise: 1 below
    1.5, 2 on [1.5, 2.5], 3 strictly between 2.5 and 3.5, 4 on
    [3.5, 4.5], 5 above 4.5.  The halves go to the even scores, so
    the bins of 2 and 4 are closed and the bin of 3 is open. *)
Theorem item_score_bins (base_val noise : Q) :
  (item_score base_val noise = 1%Z <-> base_val + noise < 1.5) /\
  (item_score base_val noise = 2%Z
   <-> 1.5 <= base_val + noise /\ base_val + noise <= 2.5) /\
  (item_score base_val noise = 3%Z
   <-> 2.5 < base_val + noise /\ base_val + noise < 3.5) /\
  (item_score base_val noise = 4%Z
   <-> 3.5 <= base_val + noise /\ base_val + noise <= 4.5) /\
  (item_score base_val noise = 5%Z <-> 4.5 < base_val + noise).
Proof.
  destruct (item_score_of_bin base_val noise) as (B1 & B2 & B3 & B4 & B5).
  destruct (Qlt_le_dec (base_val + noise) 1.5) as [H1|H1].
  { rewrite (B1 H1). settle_bin. }
  destruct (Qlt_le_dec 2.5 (base_val + noise)) as [H2|H2].
  2:{ rewrite (B2 H1 H2). settle_bin. }
  destruct (Qlt_le_dec (base_val + noise) 3.5) as [H3|H3].
  { rewrite (B3 H2 H3). settle_bin. }
  destruct (Qlt_le_dec 4.5 (base_val + noise)) as [H4|H4].
  { rewrite (B5 H4). settle_bin. }
  rewrite (B4 H3 H4). settle_bin.
Qed.

(** X7.  The stored score is a point of the scale nearest to latent
    value plus noise: no integer of [SCALE_MIN, SCALE_MAX] is closer. *)
Theorem item_score_nearest (base_val noise : Q) (k : Z) :
  (SCALE_MIN <= k <= SCALE_MAX)%Z ->
  dist (base_val + noise) (item_score base_val noise)
  <= dist (base_val + noise) k.
Proof.
  unfold SCALE_MIN, SCALE_MAX, dist, item_score, py_int. intros [Hk1 Hk5].
  destruct (py_round_spec (base_val + noise)) as (Hlo & Hhi & _).
  set (v := base_val + noise) in *. set (r := py_round v) in *.
  rewrite Zle_Qle in Hk1, Hk5.
  change (inject_Z 1) with 1 in Hk1. change (inject_Z 5) with 5 in Hk5.
  assert (Hd : forall s : Z,
             (1 <= s <= 5)%Z -> k = s \/ inject_Z k + 1 <= inject_Z s
                                \/ inject_Z s + 1 <= inject_Z k).
  { intros s Hs. rewrite <- !inject_Z_succ, <- !Zle_Qle. lia. }
  destruct (clamp_cases r) as [[Hr E]|[[Hr E]|[Hr E]]]; rewrite E.
  - rewrite Zle_Qle in Hr.
    destruct (Hd 1%Z ltac:(lia)) as [->|Hd1]; [apply Qle_refl|].
    change (inject_Z 1) with 1 in *.
    apply Qabs_Qle_condition. split.
    + apply Qabs_case; intros; destruct Hd1; lra.
    + apply Qabs_case; intros; destruct Hd1; lra.
  - destruct (Hd r Hr) as [->|Hdr]; [apply Qle_refl|].
    apply Qabs_Qle_condition. split.
    + apply Qabs_case; intros; destruct Hdr; lra.
    + apply Qabs_case; intros; destruct Hdr; lra.
  - rewrite Zle_Qle in Hr.
    destruct (Hd 5%Z ltac:(lia)) as [->|Hd5]; [apply Qle_refl|].
    change (inject_Z 5) with 5 in *.
    apply Qabs_Qle_condition. split.
    + apply Qabs_case; intros; destruct Hd5; lra.
    + apply Qabs_case; intros; destruct Hd5; lra.
Qed.

Lemma item_score_nearest_witness :
  (SCALE_MIN <= 3 <= SCALE_MAX)%Z /\
  dist (2.5 + 0) (item_score 2.5 0) <= dist (2.5 + 0) 3.
Proof.
  split; [unfold SCALE_MIN, SCALE_MAX; lia|].
  apply (item_score_nearest 2.5 0 3). unfold SCALE_MIN, SCALE_MAX. lia.
Defined.





(** X10.  Through satisfaction the loyalty latent value carries the
    five independent factors with weights 0.24, 0.24, 0.16, 0.08 and
    0.08, and the satisfaction noise with weight 0.8. *)
Theorem loyalty_total_effect (w : world) :
  exists (factors : dict Q) (w' : world) (tt_val : Q),
    draw_factors w = (Returned factors, w') /\
    dict_get factors "TT" = Some tt_val /\
    tt_val ==
      0.24 * (mu_GV + 0.7 * draw w 1) + 0.24 * (mu_CT + 0.75 * draw w 2)
      + 0.16 * (mu_CSVC + 0.8 * draw w 0) + 0.08 * (mu_NV + 0.9 * draw w 3)
      + 0.08 * (mu_HP + 0.85 * draw w 4)
      + 0.8 * (0 + 0.5 * draw w 5) + (0 + 0.4 * draw w 6).
Proof.
  exists (factors_of (draw w)), (advance 7 w), (f_TT (draw w)).
  split; [apply draw_factors_run|]. split; [reflexivity|].
  unfold f_TT, f_HL, eps_TT, eps_HL, f_GV, f_CT, f_CSVC, f_NV, f_HP. ring.
Qed.

Lemma items_count_cons (code : string) (items : list string)
      (cs : dict (list string)) :
  items_count ((code, items) :: cs)
  = (List.length items + items_count cs)%nat.
Proof. unfold items_count. cbn [map snd List.concat]. apply length_app. Qed.

(** The loop over any list of constructs whose codes are all keys. *)
Lemma construct_loop_ok (factors : dict Q) (cs : dict (list string)) :
  Forall (fun c => dict_get factors (fst c) <> None) cs ->
  forall (row : list Z) (w : world),
    exists row',
      for_in cs
        (fun '(code, items) row =>
           base_val <- getitem factors code ;;
           score_items base_val items row)
        row w
      = (Returned row', advance (items_count cs) w) /\
      List.length row' = (List.length row + items_count cs)%nat.
Proof.
  induction cs as [|[code items] cs IH]; intros Hall row w.
  - exists row. cbn [for_in]. split; [|unfold items_count; cbn; lia].
    unfold ret, advance, items_count. destruct w; reflexivity.
  - inversion Hall as [|? ? Hc Hall']; subst. cbn [fst] in Hc.
    destruct (dict_get factors code) as [v|] eqn:Hv; [|contradiction].
    cbn [for_in].
    erewrite bind_Returned.
    2:{ erewrite bind_Returned by (unfold getitem; rewrite Hv; reflexivity).
        apply score_items_run. }
    destruct (IH Hall'
                (row ++ map (fun j => item_score v (0 + 0.6 * draw w j)%Q)
                            (seq 0 (List.length items)))%list
                (advance (List.length items) w)) as (row' & Hrun & Hlen).
    exists row'. rewrite Hrun, advance_advance, items_count_cons.
    split; [reflexivity|].
    rewrite Hlen, length_app, length_map, length_seq. lia.
Qed.

(** The loop stops at the first code that is not a key. *)
Lemma construct_loop_missing (factors : dict Q)
      (cs1 : dict (list string)) (code : string) (items : list string)
      (cs2 : dict (list string)) :
  Forall (fun c => dict_get factors (fst c) <> None) cs1 ->
  dict_get factors code = None ->
  forall (row : list Z) (w : world),
    for_in (cs1 ++ (code, items) :: cs2)
      (fun '(code, items) row =>
         base_val <- getitem factors code ;;
         score_items base_val items row)
      row w
    = (Raised (KeyError code), advance (items_count cs1) w).
Proof.
  intros Hall Hnone.
  induction cs1 as [|[code1 items1] cs1 IH]; intros row w.
  - cbn [app for_in]. unfold bind, getitem. rewrite Hnone.
    unfold raise, advance, items_count. destruct w; reflexivity.
  - inversion Hall as [|? ? Hc Hall']; subst. cbn [fst] in Hc.
    destruct (dict_get factors code1) as [v|] eqn:Hv; [|contradiction].
    cbn [app for_in].
    erewrite bind_Returned.
    2:{ erewrite bind_Returned by (unfold getitem; rewrite Hv; reflexivity).
        apply score_items_run. }
    rewrite (IH Hall'), advance_advance, items_count_cons. reflexivity.
Qed.

Ltac present_by H :=
  repeat constructor; cbn [fst];
  first [ exact (H 0%nat ltac:(lia)) | exact (H 1%nat ltac:(lia))
        | exact (H 2%nat ltac:(lia)) | exact (H 3%nat ltac:(lia))
        | exact (H 4%nat ltac:(lia)) | exact (H 5%nat ltac:(lia))
        | exact (H 6%nat ltac:(lia)) ].

Ltac stop_at n :=
  match goal with
  | Hprev : forall c', (c' < _)%nat -> _,
    Hnone : dict_get ?factors _ = None
    |- _ ?w = _ =>
      exact (construct_loop_missing factors
               (firstn n constructs)
               (fst (nth n constructs ("", [])))
               (snd (nth n constructs ("", [])))
               (skipn (S n) constructs)
               ltac:(present_by Hprev) Hnone [] w)
  end.

(** X11.  The item loop looks every construct code up in [factors].
    When all seven codes are keys it returns a row of 28 scores after
    28 draws.  Otherwise it raises [KeyError] for the first code, in
    declaration order, that is not a key, having taken four draws for
    each construct before it; a dict without "CT" fails there after
    eight draws. *)
Theorem missing_factor_raises (factors : dict Q) (w : world) :
  ((forall c, (c < 7)%nat ->
      dict_get factors (nth c (map fst constructs) "") <> None) ->
   exists row,
     score_constructs factors [] w = (Returned row, advance 28 w) /\
     List.length row = 28%nat) /\
  (forall c, (c < 7)%nat ->
     (forall c', (c' < c)%nat ->
        dict_get factors (nth c' (map fst constructs) "") <> None) ->
     dict_get factors (nth c (map fst constructs) "") = None ->
     score_constructs factors [] w
     = (Raised (KeyError (nth c (map fst constructs) "")),
        advance (4 * c) w)) /\
  score_constructs partial_factors [] w
  = (Raised (KeyError "CT"), advance 8 w).
Proof.
  split; [|split].
  - intros Hall.
    assert (Hp : Forall (fun c => dict_get factors (fst c) <> None)
                        constructs).
    { present_by Hall. }
    destruct (construct_loop_ok factors constructs Hp [] w)
      as (row & Hrun & Hlen).
    exists row. split; [exact Hrun | exact Hlen].
  - intros c Hc Hprev Hnone. unfold score_constructs.
    destruct c as [|[|[|[|[|[|[|c]]]]]]];
      [ stop_at 0%nat | stop_at 1%nat | stop_at 2%nat | stop_at 3%nat
      | stop_at 4%nat | stop_at 5%nat | stop_at 6%nat | lia ].
  - exact (construct_loop_missing partial_factors
             (firstn 2 constructs) "CT" ["CT1"; "CT2"; "CT3"; "CT4"]
             (skipn 3 constructs)
             ltac:(repeat constructor; discriminate) eq_refl [] w).
Qed.

End Extras.
